(** * Shallow embedding of the [vwa_solana] Anchor program
      (programs/vwa-solana/src/lib.rs).

    The on-chain state that the program reads and writes is the set of
    program-owned accounts, modelled as a finite map from account address
    to the deserialised account ([Asset] or [TradeOrder]; the Anchor
    discriminator tells them apart).  Every instruction runs as one
    transaction: the handler computes a new ledger or an error, and the
    runtime commits the new ledger only on success.  Cross-program
    invocations of the SPL token program are recorded in a log, in the
    order in which the handler issues them, so that a failed instruction
    still shows which transfers it attempted. *)

From Stdlib Require Import ZArith String List Lia.
From stdpp Require Import base gmap list.
Import ListNotations.

Open Scope Z_scope.

(** Addresses ([Pubkey]); they are compared for equality only. *)
Abbreviation Pubkey := Z.

(** [enum AssetType] *)
Inductive AssetType :=
  | Gold | Silver | Platinum | Palladium | Diamond | Ruby | Emerald | Sapphire.

(** [enum OrderType] *)
Inductive OrderType := Buy | Sell.

(** [struct Asset]; the integer fields are [u64], [u8] and [i64]. *)
Record Asset := mkAsset {
  owner : Pubkey;
  asset_type : AssetType;
  weight : Z;
  purity : Z;
  certification : string;
  current_price : Z;
  created_at : Z;
  last_price_update : Z;
  is_active : bool
}.

(** [struct TradeOrder] *)
Record TradeOrder := mkTradeOrder {
  order_asset : Pubkey;   (** field [asset] *)
  order_owner : Pubkey;   (** field [owner] *)
  order_type : OrderType;
  quantity : Z;
  price_per_unit : Z;
  order_created_at : Z;   (** field [created_at] *)
  order_is_active : bool  (** field [is_active] *)
}.

(** A freshly [init]ialised asset account is zero-filled; Anchor deserialises it
    to these values before the handler runs (variant 0 of an enum, empty
    string, [false]). *)
Definition asset_zeroed : Asset :=
  mkAsset 0 Gold 0 0 EmptyString 0 0 0 false.

(** Accounts owned by the program. *)
Inductive Account :=
  | AssetAcc (a : Asset)
  | OrderAcc (o : TradeOrder).

Abbreviation Ledger := (gmap Z Account).

(** [enum ErrorCode] *)
Inductive ErrorCode := Unauthorized | OrderInactive | InvalidQuantity.

(** Errors an instruction can end with: the program's own [ErrorCode]s,
    the errors raised by Anchor's account validation and by the system
    program when [init] finds the address in use, and a failure reported
    by the token program. *)
Inductive Error :=
  | Custom (e : ErrorCode)
  | AccountNotInitialized
  | AccountDiscriminatorMismatch
  | AccountOwnedByWrongProgram
  | AccountDidNotDeserialize
  | AccountNotSigner
  | InvalidProgramId
  | ConstraintSeeds
  | AccountAlreadyInUse
  | TokenError.

Inductive Result (A : Type) :=
  | Ok (a : A)
  | Err (e : Error).
Arguments Ok {A} a.
Arguments Err {A} e.

(** The [Transfer] CPI: accounts and the amount passed to
    [token::transfer]. *)
Record TransferIx := mkTransferIx {
  tx_from : Pubkey;
  tx_to : Pubkey;
  tx_authority : Pubkey;
  tx_amount : Z
}.

(** What an address that holds none of this program's accounts holds, as
    far as Anchor's [Account<'info, TokenAccount>] check can tell. *)
Inductive ForeignAccount :=
  | NoAccount          (* no account: system-owned, no lamports *)
  | TokenAccountData   (* owned by the token program, unpacks as a token account *)
  | OtherTokenData     (* owned by the token program, not a token account (a mint) *)
  | OtherOwner.        (* owned by some other program *)

(** The SPL token program as the program sees it: what each foreign
    address holds, the token program's id, and its answer to a
    [Transfer] (success or an error such as insufficient funds or a wrong
    authority). *)
Record TokenEnv := mkTokenEnv {
  foreign : Pubkey -> ForeignAccount;
  token_program_id : Pubkey;
  transfer_ok : TransferIx -> bool
}.

(** ** The instruction monad: errors ([?], [require!]) and the log of
    token transfers issued by the handler. *)
Definition M (A : Type) : Type := (list TransferIx * Result A)%type.

Definition ret {A} (a : A) : M A := ([], Ok a).

Definition bind {A B} (m : M A) (f : A -> M B) : M B :=
  match m with
  | (l, Err e) => (l, Err e)
  | (l, Ok a) => let (l', r) := f a in (l ++ l', r)
  end.

Notation "'let*' x ':=' m 'in' k" := (bind m (fun x => k))
  (at level 200, x name, m at level 100, k at level 200).

Definition throw {A} (e : Error) : M A := ([], Err e).

(** [require!(cond, err)] *)
Definition require (b : bool) (e : Error) : M unit :=
  if b then ret tt else throw e.

(** Anchor's [Account<'info, Asset>] / [Account<'info, TradeOrder>]
    loaders. *)
Definition load_asset (L : Ledger) (k : Pubkey) : M Asset :=
  match L !! k with
  | Some (AssetAcc a) => ret a
  | Some (OrderAcc _) => throw AccountDiscriminatorMismatch
  | None => throw AccountNotInitialized
  end.

Definition load_order (L : Ledger) (k : Pubkey) : M TradeOrder :=
  match L !! k with
  | Some (OrderAcc o) => ret o
  | Some (AssetAcc _) => throw AccountDiscriminatorMismatch
  | None => throw AccountNotInitialized
  end.

(** Anchor's [Account<'info, TokenAccount>] check: the account must be
    owned by the token program (an account of this program is not) and
    unpack as a token account. *)
Definition load_token_account (env : TokenEnv) (L : Ledger) (k : Pubkey) : M unit :=
  match L !! k with
  | Some _ => throw AccountOwnedByWrongProgram
  | None =>
      match foreign env k with
      | NoAccount => throw AccountNotInitialized
      | TokenAccountData => ret tt
      | OtherTokenData => throw AccountDidNotDeserialize
      | OtherOwner => throw AccountOwnedByWrongProgram
      end
  end.

(** Anchor's [Program<'info, Token>] check. *)
Definition check_program_id (env : TokenEnv) (k : Pubkey) : M unit :=
  require (bool_decide (k = token_program_id env)) InvalidProgramId.

(** Anchor's [Signer<'info>] check. *)
Definition require_signer (signers : list Pubkey) (k : Pubkey) : M unit :=
  require (bool_decide (k ∈ signers)) AccountNotSigner.

(** Anchor's [init] constraint: the system program refuses to create an
    account at an address that already holds one. *)
Definition init_account (L : Ledger) (k : Pubkey) : M unit :=
  match L !! k with
  | Some _ => throw AccountAlreadyInUse
  | None => ret tt
  end.

(** The transaction boundary: the ledger written by the handler is kept
    only when the instruction succeeds. *)
Definition commit (L : Ledger) (m : M Ledger) : Result unit * Ledger :=
  match snd m with
  | Ok L' => (Ok tt, L')
  | Err e => (Err e, L)
  end.

(** Field updates used by the handlers. *)
Definition set_owner (a : Asset) (k : Pubkey) : Asset :=
  mkAsset k (asset_type a) (weight a) (purity a) (certification a)
    (current_price a) (created_at a) (last_price_update a) (is_active a).

Definition set_price (a : Asset) (p t : Z) : Asset :=
  mkAsset (owner a) (asset_type a) (weight a) (purity a) (certification a)
    p (created_at a) t (is_active a).

Definition consume (o : TradeOrder) : TradeOrder :=
  mkTradeOrder (order_asset o) (order_owner o) (order_type o) 0
    (price_per_unit o) (order_created_at o) false.

(** ** Account contexts ([#[derive(Accounts)]] structs).  Each lists the
    addresses passed in, and [signers] the keys that signed the
    transaction. *)
Record InitializeAsset := mkInitializeAsset {
  ia_asset : Pubkey; ia_owner : Pubkey; ia_signers : list Pubkey }.

Record UpdatePrice := mkUpdatePrice {
  up_asset : Pubkey; up_owner : Pubkey; up_signers : list Pubkey }.

Record CreateTradeOrder := mkCreateTradeOrder {
  co_order : Pubkey; co_asset : Pubkey; co_owner : Pubkey;
  co_signers : list Pubkey }.

Record ExecuteTrade := mkExecuteTrade {
  et_order : Pubkey; et_asset : Pubkey;
  et_from_token_account : Pubkey; et_to_token_account : Pubkey;
  et_owner : Pubkey; et_buyer : Pubkey; et_token_program : Pubkey;
  et_signers : list Pubkey }.

Section Program.

(** [Pubkey::find_program_address] on the seeds
    [[b"asset", owner, asset_type]] and [[b"order", owner, timestamp]]. *)
Variable asset_pda : Pubkey -> AssetType -> Pubkey.
Variable order_pda : Pubkey -> Z -> Pubkey.

(** The SPL token program. *)
Variable token_env : TokenEnv.

(** [token::transfer(cpi_ctx, amount)?] *)
Definition token_transfer (ix : TransferIx) : M unit :=
  ([ix], if transfer_ok token_env ix then Ok tt else Err TokenError).

(** [initialize_asset]; [now] is [Clock::get()?.unix_timestamp]. *)
Definition initialize_asset (ctx : InitializeAsset) (now : Z)
    (asset_type0 : AssetType) (weight0 : Z) (purity0 : Z)
    (certification0 : string) (initial_price : Z) (L : Ledger) : M Ledger :=
  let* _ := require_signer (ia_signers ctx) (ia_owner ctx) in
  let* _ := require (bool_decide (ia_asset ctx = asset_pda (ia_owner ctx) asset_type0))
              ConstraintSeeds in
  let* _ := init_account L (ia_asset ctx) in
  let asset := asset_zeroed in
  let asset := mkAsset (ia_owner ctx) asset_type0 weight0 purity0 certification0
                 initial_price now (last_price_update asset) true in
  ret (<[ia_asset ctx := AssetAcc asset]> L).

(** [update_price] *)
Definition update_price (ctx : UpdatePrice) (now : Z) (new_price : Z)
    (L : Ledger) : M Ledger :=
  let* asset := load_asset L (up_asset ctx) in
  let* _ := require_signer (up_signers ctx) (up_owner ctx) in
  let* _ := require (bool_decide (owner asset = up_owner ctx)) (Custom Unauthorized) in
  let asset := set_price asset new_price now in
  ret (<[up_asset ctx := AssetAcc asset]> L).

(** [create_trade_order] *)
Definition create_trade_order (ctx : CreateTradeOrder) (now : Z)
    (order_type0 : OrderType) (quantity0 price_per_unit0 : Z)
    (L : Ledger) : M Ledger :=
  let* asset := load_asset L (co_asset ctx) in
  let* _ := require_signer (co_signers ctx) (co_owner ctx) in
  let* _ := require (bool_decide (co_order ctx = order_pda (co_owner ctx) now))
              ConstraintSeeds in
  let* _ := init_account L (co_order ctx) in
  let order := mkTradeOrder (co_asset ctx) (co_owner ctx) order_type0 quantity0
                 price_per_unit0 now true in
  ret (<[co_asset ctx := AssetAcc asset]> (<[co_order ctx := OrderAcc order]> L)).

(** [execute_trade]: Anchor validates the [ExecuteTrade] accounts in the
    order of the struct's fields, then the handler runs. *)
Definition execute_trade (ctx : ExecuteTrade) (L : Ledger) : M Ledger :=
  let* order := load_order L (et_order ctx) in
  let* asset := load_asset L (et_asset ctx) in
  let* _ := load_token_account token_env L (et_from_token_account ctx) in
  let* _ := load_token_account token_env L (et_to_token_account ctx) in
  let* _ := require_signer (et_signers ctx) (et_owner ctx) in
  let* _ := require_signer (et_signers ctx) (et_buyer ctx) in
  let* _ := check_program_id token_env (et_token_program ctx) in
  let* _ := require (order_is_active order) (Custom OrderInactive) in
  let* _ := require (0 <? quantity order) (Custom InvalidQuantity) in
  let transfer_instruction :=
    mkTransferIx (et_from_token_account ctx) (et_to_token_account ctx)
      (et_owner ctx) (quantity order) in
  let* _ := token_transfer transfer_instruction in
  let order := consume order in
  let asset := set_owner asset (et_buyer ctx) in
  ret (<[et_asset ctx := AssetAcc asset]> (<[et_order ctx := OrderAcc order]> L)).

(** The program's instructions, with their arguments. *)
Inductive Instruction :=
  | IInitializeAsset (ctx : InitializeAsset) (t : AssetType) (w p : Z)
      (c : string) (price : Z)
  | IUpdatePrice (ctx : UpdatePrice) (new_price : Z)
  | ICreateTradeOrder (ctx : CreateTradeOrder) (t : OrderType) (q ppu : Z)
  | IExecuteTrade (ctx : ExecuteTrade).

Definition handler (now : Z) (ix : Instruction) (L : Ledger) : M Ledger :=
  match ix with
  | IInitializeAsset ctx t w p c price => initialize_asset ctx now t w p c price L
  | IUpdatePrice ctx np => update_price ctx now np L
  | ICreateTradeOrder ctx t q ppu => create_trade_order ctx now t q ppu L
  | IExecuteTrade ctx => execute_trade ctx L
  end.

(** One transaction: run the handler at clock [now], commit on success. *)
Definition step (now : Z) (ix : Instruction) (L : Ledger) : Result unit * Ledger :=
  commit L (handler now ix L).

(** Over a sequence of transactions (each with its clock reading), the
    number of times the order stored at [k] goes from active to inactive. *)
Definition order_active_at (L : Ledger) (k : Pubkey) : option bool :=
  match L !! k with
  | Some (OrderAcc o) => Some (order_is_active o)
  | _ => None
  end.

Fixpoint deactivations (k : Pubkey) (L : Ledger) (txs : list (Z * Instruction)) : nat :=
  match txs with
  | [] => 0
  | (now, ix) :: txs' =>
      let L' := snd (step now ix L) in
      (if bool_decide (order_active_at L k = Some true /\
                       order_active_at L' k = Some false) then 1 else 0)%nat
      + deactivations k L' txs'
  end.

End Program.

(** An order that differs from [o] only in [price_per_unit]. *)
Definition with_price_per_unit (o : TradeOrder) (p : Z) : TradeOrder :=
  mkTradeOrder (order_asset o) (order_owner o) (order_type o) (quantity o)
    p (order_created_at o) (order_is_active o).

(** Anchor accepts the token accounts and the token program that an
    [ExecuteTrade] context passes. *)
Definition token_accounts_valid (env : TokenEnv) (L : Ledger) (ctx : ExecuteTrade) : Prop :=
  load_token_account env L (et_from_token_account ctx) = ret tt /\
  load_token_account env L (et_to_token_account ctx) = ret tt /\
  et_token_program ctx = token_program_id env.

(** The transfer [execute_trade] issues for order [o]. *)
Definition settlement_ix (ctx : ExecuteTrade) (o : TradeOrder) : TransferIx :=
  mkTransferIx (et_from_token_account ctx) (et_to_token_account ctx)
    (et_owner ctx) (quantity o).

(** * Properties *)

Ltac unfold_ix :=
  unfold step, handler, commit, initialize_asset, update_price,
    create_trade_order, execute_trade, load_order, load_asset,
    load_token_account, check_program_id,
    require_signer, require, init_account, token_transfer, bind, ret, throw
    in *.

Section Properties.

Variable asset_pda : Pubkey -> AssetType -> Pubkey.
Variable order_pda : Pubkey -> Z -> Pubkey.
Variable tok : TokenEnv.

(** ** [execute_trade] *)

(** Once Anchor's validation passes, [execute_trade] is the chain of the
    handler's own checks followed by the transfer. *)
Lemma execute_trade_eq ctx L o a :
  L !! et_order ctx = Some (OrderAcc o) ->
  L !! et_asset ctx = Some (AssetAcc a) ->
  token_accounts_valid tok L ctx ->
  et_owner ctx ∈ et_signers ctx -> et_buyer ctx ∈ et_signers ctx ->
  execute_trade tok ctx L =
    if order_is_active o then
      if 0 <? quantity o then
        ([settlement_ix ctx o],
         if transfer_ok tok (settlement_ix ctx o) then
           Ok (<[et_asset ctx := AssetAcc (set_owner a (et_buyer ctx))]>
                 (<[et_order ctx := OrderAcc (consume o)]> L))
         else Err TokenError)
      else ([], Err (Custom InvalidQuantity))
    else ([], Err (Custom OrderInactive)).
Proof.
  intros Ho Ha (Hf & Ht & Hp) Hs Hb.
  unfold execute_trade, load_order, load_asset. rewrite Ho, Ha, Hf, Ht.
  unfold check_program_id, require_signer, require, token_transfer, bind, ret, throw.
  rewrite !bool_decide_eq_true_2 by assumption. cbn.
  unfold settlement_ix.
  destruct (order_is_active o), (0 <? quantity o); try reflexivity.
  destruct (transfer_ok tok {| tx_from := _ |}); reflexivity.
Qed.

Lemma bind_ok_inv {A B} (m : M A) (f : A -> M B) tr b :
  bind m f = (tr, Ok b) ->
  exists l x l', m = (l, Ok x) /\ f x = (l', Ok b) /\ tr = l ++ l'.
Proof.
  unfold bind. destruct m as [l [x|e]]; [|discriminate].
  destruct (f x) as [l' r] eqn:E. intros [= <- ->]. eauto 6.
Qed.

Lemma require_ok_inv b e tr u : require b e = (tr, Ok u) -> b = true /\ tr = [].
Proof. unfold require, ret, throw. destruct b; intros H; split; congruence. Qed.

Lemma load_order_ok_inv L k tr o :
  load_order L k = (tr, Ok o) -> L !! k = Some (OrderAcc o) /\ tr = [].
Proof. unfold load_order, ret, throw. repeat case_match; intros Hm; split; congruence. Qed.

Lemma load_asset_ok_inv L k tr a :
  load_asset L k = (tr, Ok a) -> L !! k = Some (AssetAcc a) /\ tr = [].
Proof. unfold load_asset, ret, throw. repeat case_match; intros Hm; split; congruence. Qed.

Lemma load_token_account_ok_inv L k tr u :
  load_token_account tok L k = (tr, Ok u) -> load_token_account tok L k = ret tt /\ tr = [].
Proof.
  destruct u. intros H. rewrite H. unfold load_token_account, ret, throw in H.
  repeat case_match; simplify_eq; done.
Qed.

(** What a successful [execute_trade] read and wrote. *)
Lemma execute_trade_ok_inv ctx L tr L' :
  execute_trade tok ctx L = (tr, Ok L') ->
  exists o a,
    L !! et_order ctx = Some (OrderAcc o) /\
    L !! et_asset ctx = Some (AssetAcc a) /\
    et_owner ctx ∈ et_signers ctx /\ et_buyer ctx ∈ et_signers ctx /\
    order_is_active o = true /\ 0 < quantity o /\
    transfer_ok tok (settlement_ix ctx o) = true /\
    tr = [settlement_ix ctx o] /\
    L' = <[et_asset ctx := AssetAcc (set_owner a (et_buyer ctx))]>
           (<[et_order ctx := OrderAcc (consume o)]> L) /\
    token_accounts_valid tok L ctx.
Proof.
  unfold execute_trade. intros H.
  apply bind_ok_inv in H as (l1 & o & r1 & H1 & H & ->); cbv beta in H.
  apply load_order_ok_inv in H1 as [Ho ->].
  apply bind_ok_inv in H as (l2 & a & r2 & H2 & H & ->); cbv beta in H.
  apply load_asset_ok_inv in H2 as [Ha ->].
  apply bind_ok_inv in H as (l3 & u3 & r3 & H3 & H & ->); cbv beta in H.
  apply load_token_account_ok_inv in H3 as [Hf ->].
  apply bind_ok_inv in H as (l4 & u4 & r4 & H4 & H & ->); cbv beta in H.
  apply load_token_account_ok_inv in H4 as [Ht ->].
  apply bind_ok_inv in H as (l5 & u5 & r5 & H5 & H & ->); cbv beta in H.
  apply require_ok_inv in H5 as [Hs%bool_decide_eq_true_1 ->].
  apply bind_ok_inv in H as (l6 & u6 & r6 & H6 & H & ->); cbv beta in H.
  apply require_ok_inv in H6 as [Hb%bool_decide_eq_true_1 ->].
  apply bind_ok_inv in H as (l7 & u7 & r7 & H7 & H & ->); cbv beta in H.
  apply require_ok_inv in H7 as [Hp%bool_decide_eq_true_1 ->].
  apply bind_ok_inv in H as (l8 & u8 & r8 & H8 & H & ->); cbv beta in H.
  apply require_ok_inv in H8 as [Hact ->].
  apply bind_ok_inv in H as (l9 & u9 & r9 & H9 & H & ->); cbv beta zeta in H.
  apply require_ok_inv in H9 as [Hq%Z.ltb_lt ->].
  apply bind_ok_inv in H as (l10 & u10 & r10 & H10 & H & ->); cbv beta zeta in H.
  unfold token_transfer in H10.
  destruct (transfer_ok tok _) eqn:Htok; [|discriminate].
  injection H10 as <- _. unfold ret in H. injection H as <- <-.
  exists o, a. unfold settlement_ix. repeat split; done.
Qed.

Lemma order_asset_keys_differ (L : Ledger) ko ka o a :
  L !! ko = Some (OrderAcc o) -> L !! ka = Some (AssetAcc a) -> ko <> ka.
Proof. intros Ho Ha ->. congruence. Qed.

(** The ledger after a successful trade: the order consumed, the asset
    handed to the buyer. *)
Lemma execute_trade_ok_lookups ctx L tr L' :
  execute_trade tok ctx L = (tr, Ok L') ->
  exists o a,
    L !! et_order ctx = Some (OrderAcc o) /\
    L !! et_asset ctx = Some (AssetAcc a) /\
    L' !! et_order ctx = Some (OrderAcc (consume o)) /\
    L' !! et_asset ctx = Some (AssetAcc (set_owner a (et_buyer ctx))) /\
    (forall k, k <> et_order ctx -> k <> et_asset ctx -> L' !! k = L !! k).
Proof.
  intros H. apply execute_trade_ok_inv in H
    as (o & a & Ho & Ha & _ & _ & _ & _ & _ & _ & -> & _).
  pose proof (order_asset_keys_differ L _ _ o a Ho Ha) as Hne.
  exists o, a. repeat split; try done.
  - rewrite lookup_insert_ne by congruence. apply lookup_insert_eq.
  - apply lookup_insert_eq.
  - intros k Hk1 Hk2. rewrite !lookup_insert_ne by congruence. done.
Qed.

(** A failed transaction leaves the ledger as it was. *)
Lemma step_err now ix L e L' :
  step asset_pda order_pda tok now ix L = (Err e, L') -> L' = L.
Proof. unfold step, commit. case_match; congruence. Qed.

(** Validation only reads the token accounts; a trade writes none of them. *)
Lemma load_token_account_ok_none env L k :
  load_token_account env L k = ret tt -> L !! k = None.
Proof. unfold load_token_account, ret, throw. repeat case_match; congruence. Qed.

Lemma token_accounts_valid_after_trade ctx L tr L' :
  execute_trade tok ctx L = (tr, Ok L') -> token_accounts_valid tok L' ctx.
Proof.
  intros H.
  pose proof H as (o & a & Ho & Ha & _ & _ & Hframe)%execute_trade_ok_lookups.
  apply execute_trade_ok_inv in H as (_ & _ & _ & _ & _ & _ & _ & _ & _ & _ & _ & Hf & Ht & Hp).
  assert (Hsame : forall k, load_token_account tok L k = ret tt ->
            load_token_account tok L' k = ret tt).
  { intros k Hk. pose proof (load_token_account_ok_none _ _ _ Hk) as Hnone.
    unfold load_token_account. rewrite Hframe by congruence. exact Hk. }
  split; [|split]; auto.
Qed.

(** [execute_trade] issues no transfer, or the settlement of the active,
    positive-quantity order it was given. *)
Lemma execute_trade_log ctx L :
  fst (execute_trade tok ctx L) = [] \/
  exists o, L !! et_order ctx = Some (OrderAcc o) /\ order_is_active o = true /\
    0 < quantity o /\ fst (execute_trade tok ctx L) = [settlement_ix ctx o].
Proof.
  unfold execute_trade, load_order.
  destruct (L !! et_order ctx) as [[a|o]|] eqn:Ho; cbn; [left; reflexivity| |left; reflexivity].
  unfold load_asset. destruct (L !! et_asset ctx) as [[a|o']|]; cbn; [|left; reflexivity..].
  unfold load_token_account.
  destruct (L !! et_from_token_account ctx); cbn; [left; reflexivity|].
  destruct (foreign tok (et_from_token_account ctx)); cbn; try (left; reflexivity).
  destruct (L !! et_to_token_account ctx); cbn; [left; reflexivity|].
  destruct (foreign tok (et_to_token_account ctx)); cbn; try (left; reflexivity).
  unfold require_signer, check_program_id, require.
  case_bool_decide; cbn; [|left; reflexivity].
  case_bool_decide; cbn; [|left; reflexivity].
  case_bool_decide; cbn; [|left; reflexivity].
  destruct (order_is_active o) eqn:Hact; cbn; [|left; reflexivity].
  destruct (0 <? quantity o) eqn:Hq; cbn; [|left; reflexivity].
  apply Z.ltb_lt in Hq.
  right. exists o. repeat split; try done.
  unfold token_transfer. destruct (transfer_ok tok _); reflexivity.
Qed.

(** Changing the unit price of the order at [et_order] changes no loader's
    answer and no check's outcome. *)
Lemma load_asset_reprice L ko o p k :
  L !! ko = Some (OrderAcc o) ->
  load_asset (<[ko := OrderAcc (with_price_per_unit o p)]> L) k = load_asset L k.
Proof.
  intros Ho. unfold load_asset.
  destruct (decide (k = ko)) as [->|Hne];
    [rewrite lookup_insert_eq, Ho|rewrite lookup_insert_ne by congruence]; reflexivity.
Qed.

Lemma load_token_account_reprice L ko o p k :
  L !! ko = Some (OrderAcc o) ->
  load_token_account tok (<[ko := OrderAcc (with_price_per_unit o p)]> L) k =
  load_token_account tok L k.
Proof.
  intros Ho. unfold load_token_account.
  destruct (decide (k = ko)) as [->|Hne];
    [rewrite lookup_insert_eq, Ho|rewrite lookup_insert_ne by congruence]; reflexivity.
Qed.

Lemma execute_trade_reprice ctx L o p :
  L !! et_order ctx = Some (OrderAcc o) ->
  fst (execute_trade tok ctx (<[et_order ctx := OrderAcc (with_price_per_unit o p)]> L))
    = fst (execute_trade tok ctx L) /\
  (forall e,
     snd (execute_trade tok ctx (<[et_order ctx := OrderAcc (with_price_per_unit o p)]> L))
       = Err e <-> snd (execute_trade tok ctx L) = Err e).
Proof.
  intros Ho. unfold execute_trade.
  rewrite !(load_asset_reprice L _ o p _ Ho), !(load_token_account_reprice L _ o p _ Ho).
  unfold load_order. rewrite lookup_insert_eq, Ho. cbn.
  destruct (load_asset L (et_asset ctx)) as [l2 [a|e2]]; cbn; [|split; [done|intros; reflexivity]].
  destruct (load_token_account tok L (et_from_token_account ctx)) as [l3 [[]|e3]]; cbn;
    [|split; [done|intros; reflexivity]].
  destruct (load_token_account tok L (et_to_token_account ctx)) as [l4 [[]|e4]]; cbn;
    [|split; [done|intros; reflexivity]].
  destruct (require_signer (et_signers ctx) (et_owner ctx)) as [l5 [[]|e5]]; cbn;
    [|split; [done|intros; reflexivity]].
  destruct (require_signer (et_signers ctx) (et_buyer ctx)) as [l6 [[]|e6]]; cbn;
    [|split; [done|intros; reflexivity]].
  destruct (check_program_id tok (et_token_program ctx)) as [l7 [[]|e7]]; cbn;
    [|split; [done|intros; reflexivity]].
  unfold require, ret, throw. cbn.
  destruct (order_is_active o), (0 <? quantity o); cbn; try (split; [done|intros; reflexivity]).
  unfold token_transfer. cbn.
  destruct (transfer_ok tok _); cbn; split; try done; intros e; split; congruence.
Qed.
(** ** C1 *)

(** C1: for an active order with positive quantity, a successful
    [execute_trade] leaves the order with [quantity = 0] and
    [is_active = false], makes the key passed as [buyer] the asset's owner
    (whatever the order says), and issues exactly one token transfer, of
    the order's quantity before execution. *)
Theorem execute_trade_success_effects ctx L o tr L' :
  L !! et_order ctx = Some (OrderAcc o) ->
  order_is_active o = true -> 0 < quantity o ->
  execute_trade tok ctx L = (tr, Ok L') ->
  (exists o', L' !! et_order ctx = Some (OrderAcc o') /\
              quantity o' = 0 /\ order_is_active o' = false) /\
  (exists a', L' !! et_asset ctx = Some (AssetAcc a') /\
              owner a' = et_buyer ctx) /\
  tr = [mkTransferIx (et_from_token_account ctx) (et_to_token_account ctx)
          (et_owner ctx) (quantity o)].
Proof.
  intros Ho _ _ H.
  pose proof H as (o0 & a & Ho0 & _ & Ho' & Ha' & _)%execute_trade_ok_lookups.
  apply execute_trade_ok_inv in H as (o1 & a1 & Ho1 & _ & _ & _ & _ & _ & _ & -> & _).
  rewrite Ho in Ho0, Ho1. simplify_eq.
  split; [|split].
  - exists (consume o1). done.
  - eexists. split; [exact Ha'|done].
  - reflexivity.
Qed.

(** ** C2 *)

(** C2 (as the code has it): Anchor's account validation (the order and
    asset accounts load, the two token accounts are token accounts of the
    token program, [owner] and [buyer] signed, [token_program] is the
    token program) runs before the handler.  Once it passes, an inactive order fails with
    [OrderInactive] and no transfer is issued; an inactive order never
    leads to a committed change; and repeating a successful
    [execute_trade] with the same accounts fails with [OrderInactive]. *)
Theorem execute_trade_inactive ctx L o :
  L !! et_order ctx = Some (OrderAcc o) -> order_is_active o = false ->
  (forall now, exists e, step asset_pda order_pda tok now (IExecuteTrade ctx) L = (Err e, L)) /\
  fst (execute_trade tok ctx L) = [] /\
  ((exists a, L !! et_asset ctx = Some (AssetAcc a)) ->
   token_accounts_valid tok L ctx ->
   et_owner ctx ∈ et_signers ctx -> et_buyer ctx ∈ et_signers ctx ->
   execute_trade tok ctx L = ([], Err (Custom OrderInactive))) /\
  (forall L0 now1 now2,
     fst (step asset_pda order_pda tok now1 (IExecuteTrade ctx) L0) = Ok tt ->
     step asset_pda order_pda tok now2 (IExecuteTrade ctx) (snd (step asset_pda order_pda tok now1 (IExecuteTrade ctx) L0))
       = (Err (Custom OrderInactive), snd (step asset_pda order_pda tok now1 (IExecuteTrade ctx) L0))).
Proof.
  intros Ho Hin. split; [|split; [|split]].
  - intros now. unfold step, handler, commit.
    destruct (execute_trade tok ctx L) as [tr [L'|e]] eqn:E; simpl.
    + apply execute_trade_ok_inv in E as (o' & _ & Ho' & _ & _ & _ & Hact & _).
      congruence.
    + eauto.
  - destruct (execute_trade_log ctx L) as [H|(o' & Ho' & Hact & _)]; [exact H|].
    congruence.
  - intros [a Ha] Hv Hs Hb. rewrite (execute_trade_eq ctx L o a) by done.
    rewrite Hin. reflexivity.
  - intros L0 now1 now2. unfold step, handler, commit.
    destruct (execute_trade tok ctx L0) as [tr [L1|e]] eqn:E; simpl; [|discriminate].
    intros _.
    pose proof E as (o0 & a0 & _ & _ & Ho1 & Ha1 & _)%execute_trade_ok_lookups.
    pose proof (token_accounts_valid_after_trade _ _ _ _ E) as Hv1.
    apply execute_trade_ok_inv in E as (? & ? & ? & ? & Hs & Hb & _).
    rewrite (execute_trade_eq ctx L1 (consume o0) _ Ho1 Ha1 Hv1 Hs Hb). reflexivity.
Qed.

(** ** C3 *)

(** C3 (as the code has it): after Anchor's account validation (the
    order and asset accounts, the token accounts, the signers and the
    token program), the
    handler checks [is_active] and then [quantity > 0]: an active order
    of quantity 0 fails with [InvalidQuantity] with no transfer issued,
    an order both inactive and of quantity 0 fails with [OrderInactive],
    and every failing [execute_trade] leaves the ledger unchanged. *)
Theorem execute_trade_check_order ctx L o a :
  L !! et_order ctx = Some (OrderAcc o) ->
  L !! et_asset ctx = Some (AssetAcc a) ->
  token_accounts_valid tok L ctx ->
  et_owner ctx ∈ et_signers ctx -> et_buyer ctx ∈ et_signers ctx ->
  (order_is_active o = true -> quantity o = 0 ->
   execute_trade tok ctx L = ([], Err (Custom InvalidQuantity))) /\
  (order_is_active o = false -> quantity o = 0 ->
   execute_trade tok ctx L = ([], Err (Custom OrderInactive))) /\
  (forall now e L', step asset_pda order_pda tok now (IExecuteTrade ctx) L = (Err e, L') -> L' = L).
Proof.
  intros Ho Ha Hv Hs Hb.
  rewrite (execute_trade_eq ctx L o a Ho Ha Hv Hs Hb).
  split; [|split].
  - intros -> ->. reflexivity.
  - intros -> _. reflexivity.
  - intros now e L'. apply step_err.
Qed.

(** ** C5 *)

(** C5: the amount of every transfer [execute_trade] issues is the
    order's [quantity]; [price_per_unit] takes no part in it: changing it
    changes neither the transfers issued nor the outcome. *)
Theorem execute_trade_amount_is_quantity ctx L o p :
  L !! et_order ctx = Some (OrderAcc o) ->
  Forall (fun ix => tx_amount ix = quantity o) (fst (execute_trade tok ctx L)) /\
  (forall tr L', execute_trade tok ctx L = (tr, Ok L') ->
     tr = [settlement_ix ctx o] /\ tx_amount (settlement_ix ctx o) = quantity o) /\
  fst (execute_trade tok ctx (<[et_order ctx := OrderAcc (with_price_per_unit o p)]> L))
    = fst (execute_trade tok ctx L) /\
  (forall e,
     snd (execute_trade tok ctx (<[et_order ctx := OrderAcc (with_price_per_unit o p)]> L))
       = Err e <-> snd (execute_trade tok ctx L) = Err e).
Proof.
  intros Ho. split; [|split].
  - destruct (execute_trade_log ctx L) as [->|(o' & Ho' & _ & _ & ->)]; [done|].
    rewrite Ho in Ho'. simplify_eq. repeat constructor.
  - intros tr L' H.
    apply execute_trade_ok_inv in H as (o' & _ & Ho' & _ & _ & _ & _ & _ & _ & -> & _).
    rewrite Ho in Ho'. simplify_eq. done.
  - exact (execute_trade_reprice ctx L o p Ho).
Qed.

(** ** C6 *)

(** C6: [execute_trade] never compares the asset account it is given
    with the order's [asset] field: with an asset account other than the
    one the order names, the trade still goes through and the buyer
    becomes that asset's owner. *)
Theorem execute_trade_unrelated_asset ctx L o a now :
  L !! et_order ctx = Some (OrderAcc o) ->
  order_is_active o = true -> 0 < quantity o ->
  L !! et_asset ctx = Some (AssetAcc a) ->
  order_asset o <> et_asset ctx ->
  token_accounts_valid tok L ctx ->
  et_owner ctx ∈ et_signers ctx -> et_buyer ctx ∈ et_signers ctx ->
  transfer_ok tok (settlement_ix ctx o) = true ->
  exists L',
    step asset_pda order_pda tok now (IExecuteTrade ctx) L = (Ok tt, L') /\
    L' !! et_asset ctx = Some (AssetAcc (set_owner a (et_buyer ctx))) /\
    owner (set_owner a (et_buyer ctx)) = et_buyer ctx.
Proof.
  intros Ho Hact Hq Ha _ Hv Hs Hb Htok.
  unfold step, handler, commit.
  rewrite (execute_trade_eq ctx L o a Ho Ha Hv Hs Hb), Hact, Htok.
  apply Z.ltb_lt in Hq. rewrite Hq. cbn.
  eexists. split; [reflexivity|split; [apply lookup_insert_eq|reflexivity]].
Qed.

(** ** C7 *)

(** C7: [execute_trade] never compares the signers with the order's
    [owner]: for any two signing keys, an active order of positive
    quantity passes the handler's checks and the transfer is issued; the
    outcome is then the token program's answer alone. *)
Theorem execute_trade_any_signers ctx L o a :
  L !! et_order ctx = Some (OrderAcc o) ->
  order_is_active o = true -> 0 < quantity o ->
  L !! et_asset ctx = Some (AssetAcc a) ->
  token_accounts_valid tok L ctx ->
  et_owner ctx ∈ et_signers ctx -> et_buyer ctx ∈ et_signers ctx ->
  execute_trade tok ctx L =
    ([settlement_ix ctx o],
     if transfer_ok tok (settlement_ix ctx o) then
       Ok (<[et_asset ctx := AssetAcc (set_owner a (et_buyer ctx))]>
             (<[et_order ctx := OrderAcc (consume o)]> L))
     else Err TokenError).
Proof.
  intros Ho Hact Hq Ha Hv Hs Hb.
  rewrite (execute_trade_eq ctx L o a Ho Ha Hv Hs Hb), Hact.
  apply Z.ltb_lt in Hq. rewrite Hq. reflexivity.
Qed.

(** ** C4 *)

(** C4 (as the code has it): when an account already exists at the
    address derived from [(owner, asset_type)], [initialize_asset] is
    refused by Anchor's [init] (the system program's "account already in
    use"); the program defines no error of its own for this. *)
Theorem initialize_asset_existing ctx now t w p c price L acc :
  ia_owner ctx ∈ ia_signers ctx ->
  ia_asset ctx = asset_pda (ia_owner ctx) t ->
  L !! ia_asset ctx = Some acc ->
  step asset_pda order_pda tok now (IInitializeAsset ctx t w p c price) L = (Err AccountAlreadyInUse, L).
Proof.
  intros Hs Hpda Hin. unfold_ix.
  rewrite bool_decide_eq_true_2 by done. cbn.
  rewrite bool_decide_eq_true_2 by done. cbn.
  rewrite Hin. reflexivity.
Qed.

(** ** C9 *)

(** C9: for an asset account and a signing caller, [update_price] fails
    with [Unauthorized] exactly when the caller is not the asset's
    [owner], and then nothing changes; otherwise it sets
    [current_price := new_price] and [last_price_update := now], whatever
    [new_price] is. *)
Theorem update_price_spec ctx now new_price L a :
  L !! up_asset ctx = Some (AssetAcc a) ->
  up_owner ctx ∈ up_signers ctx ->
  (fst (step asset_pda order_pda tok now (IUpdatePrice ctx new_price) L) = Err (Custom Unauthorized)
     <-> owner a <> up_owner ctx) /\
  (owner a <> up_owner ctx ->
     step asset_pda order_pda tok now (IUpdatePrice ctx new_price) L = (Err (Custom Unauthorized), L)) /\
  (owner a = up_owner ctx ->
     exists a',
       step asset_pda order_pda tok now (IUpdatePrice ctx new_price) L
         = (Ok tt, <[up_asset ctx := AssetAcc a']> L) /\
       current_price a' = new_price /\ last_price_update a' = now /\
       a' = set_price a new_price now).
Proof.
  intros Ha Hs.
  assert (E : step asset_pda order_pda tok now (IUpdatePrice ctx new_price) L =
    if bool_decide (owner a = up_owner ctx)
    then (Ok tt, <[up_asset ctx := AssetAcc (set_price a new_price now)]> L)
    else (Err (Custom Unauthorized), L)).
  { unfold_ix. rewrite Ha. cbn. rewrite bool_decide_eq_true_2 by done. cbn.
    case_bool_decide; reflexivity. }
  rewrite E. split; [|split].
  - case_bool_decide; cbn; split; congruence.
  - intros Hne. rewrite bool_decide_eq_false_2 by done. reflexivity.
  - intros Heq. rewrite bool_decide_eq_true_2 by done.
    eexists. split; [reflexivity|]. done.
Qed.

(** ** C10 *)

(** C10: [initialize_asset] succeeds exactly when the owner signed, the
    address is the one derived from [(owner, asset_type)] and it is
    free, whatever the weight, purity, certification and price; the
    record it then stores holds the inputs, [is_active = true],
    [created_at = now] and [last_price_update = 0]. *)
Theorem initialize_asset_record ctx now t w p c price L :
  (fst (step asset_pda order_pda tok now (IInitializeAsset ctx t w p c price) L) = Ok tt <->
     ia_owner ctx ∈ ia_signers ctx /\
     ia_asset ctx = asset_pda (ia_owner ctx) t /\
     L !! ia_asset ctx = None) /\
  (forall L', step asset_pda order_pda tok now (IInitializeAsset ctx t w p c price) L = (Ok tt, L') ->
     L' = <[ia_asset ctx := AssetAcc (mkAsset (ia_owner ctx) t w p c price now 0 true)]> L).
Proof.
  unfold_ix. cbn.
  case_bool_decide as Hs; cbn; [|split; [split; [discriminate|tauto]|discriminate]].
  case_bool_decide as Hpda; cbn; [|split; [split; [discriminate|tauto]|discriminate]].
  destruct (L !! ia_asset ctx) eqn:Hin; cbn.
  - split; [split; [discriminate|intros (_ & _ & ?); discriminate]|discriminate].
  - split; [tauto|]. intros L' [= <-]. reflexivity.
Qed.

(** ** C8 *)

(** One transaction either leaves the order stored at [k] as it is, or is
    a successful [execute_trade] of that order, which was active and is
    now consumed. *)
Lemma step_order_at now ix L k o :
  L !! k = Some (OrderAcc o) ->
  snd (step asset_pda order_pda tok now ix L) !! k = Some (OrderAcc o) \/
  (exists ctx, ix = IExecuteTrade ctx /\ et_order ctx = k /\
     fst (step asset_pda order_pda tok now ix L) = Ok tt /\ order_is_active o = true /\
     snd (step asset_pda order_pda tok now ix L) !! k = Some (OrderAcc (consume o))).
Proof.
  intros Hk. destruct ix as [ctx t w p c price|ctx np|ctx t q ppu|ctx].
  - left. unfold_ix. cbn. repeat case_match; simplify_eq/=; try done.
    rewrite lookup_insert_ne by congruence. done.
  - left. unfold_ix. cbn. repeat case_match; simplify_eq/=; try done.
    rewrite lookup_insert_ne by congruence. done.
  - left. unfold_ix. cbn. repeat case_match; simplify_eq/=; try done.
    rewrite !lookup_insert_ne by congruence. done.
  - unfold step, handler, commit.
    destruct (execute_trade tok ctx L) as [tr [L'|e]] eqn:E; cbn; [|left; done].
    pose proof E as (o0 & a0 & Ho & Ha & Ho' & Ha' & Hframe)%execute_trade_ok_lookups.
    apply execute_trade_ok_inv in E as (? & ? & Ho1 & _ & _ & _ & Hact & _).
    destruct (decide (k = et_order ctx)) as [->|Hne].
    + right. rewrite Hk in Ho, Ho1. simplify_eq. eexists. done.
    + left. rewrite Hframe; [done|done|]. intros ->. congruence.
Qed.

Lemma step_inactive_frozen now ix L k o :
  L !! k = Some (OrderAcc o) -> order_is_active o = false ->
  snd (step asset_pda order_pda tok now ix L) !! k = Some (OrderAcc o).
Proof.
  intros Hk Hin.
  destruct (step_order_at now ix L k o Hk) as [H|(_ & _ & _ & _ & Hact & _)];
    congruence.
Qed.

Lemma deactivations_after_inactive k L txs :
  order_active_at L k = Some false ->
  deactivations asset_pda order_pda tok k L txs = 0%nat.
Proof.
  revert L. induction txs as [|[now ix] txs IH]; intros L H; [done|].
  cbn [deactivations].
  unfold order_active_at in H.
  destruct (L !! k) as [[a|o]|] eqn:Hk; try discriminate.
  injection H as Hin.
  pose proof (step_inactive_frozen now ix L k o Hk Hin) as Hk'.
  rewrite bool_decide_eq_false_2.
  - rewrite IH; [done|]. unfold order_active_at. rewrite Hk'. congruence.
  - unfold order_active_at. rewrite Hk. intros [? _]. congruence.
Qed.

(** C8: an inactive order is never touched again (no [false -> true]);
    an active order becomes inactive only through a successful
    [execute_trade] of that order, so along any sequence of transactions
    an order is deactivated at most once; and a successful trade writes
    one order account and one asset account and nothing else. *)
Theorem order_lifecycle :
  (forall now ix L k o,
     L !! k = Some (OrderAcc o) -> order_is_active o = false ->
     snd (step asset_pda order_pda tok now ix L) !! k = Some (OrderAcc o)) /\
  (forall now ix L k o o',
     L !! k = Some (OrderAcc o) -> order_is_active o = true ->
     snd (step asset_pda order_pda tok now ix L) !! k = Some (OrderAcc o') -> order_is_active o' = false ->
     exists ctx, ix = IExecuteTrade ctx /\ et_order ctx = k /\
                 fst (step asset_pda order_pda tok now ix L) = Ok tt) /\
  (forall k L txs, (deactivations asset_pda order_pda tok k L txs <= 1)%nat) /\
  (forall now ctx L L',
     step asset_pda order_pda tok now (IExecuteTrade ctx) L = (Ok tt, L') ->
     exists o a o' a',
       L !! et_order ctx = Some (OrderAcc o) /\
       L !! et_asset ctx = Some (AssetAcc a) /\
       L' !! et_order ctx = Some (OrderAcc o') /\
       L' !! et_asset ctx = Some (AssetAcc a') /\
       et_order ctx <> et_asset ctx /\
       (forall k, k <> et_order ctx -> k <> et_asset ctx -> L' !! k = L !! k)).
Proof.
  split; [|split; [|split]].
  - exact step_inactive_frozen.
  - intros now ix L k o o' Hk Hact Hk' Hin.
    destruct (step_order_at now ix L k o Hk)
      as [H|(ctx & Hix & Hko & Hok & _)]; [congruence|].
    eauto.
  - intros k L txs. revert L.
    induction txs as [|[now ix] txs IH]; intros L; cbn [deactivations]; [lia|].
    case_bool_decide as Hd.
    + destruct Hd as [_ Hd].
      rewrite deactivations_after_inactive by exact Hd. lia.
    + specialize (IH (snd (step asset_pda order_pda tok now ix L))). lia.
  - intros now ctx L L'. unfold step, handler, commit.
    destruct (execute_trade tok ctx L) as [tr [L1|e]] eqn:E; cbn; [|discriminate].
    intros [= <-].
    pose proof E as (o & a & Ho & Ha & Ho' & Ha' & Hframe)%execute_trade_ok_lookups.
    exists o, a, (consume o), (set_owner a (et_buyer ctx)).
    repeat split; try done.
    exact (order_asset_keys_differ L _ _ o a Ho Ha).
Qed.

End Properties.

(** * Concrete runs *)

(** Stand-ins for the address derivation and the token program: distinct
    seeds give distinct addresses; the addresses 100 to 199 hold token
    accounts, the token program has key 50 and accepts the transfers that
    key 1 authorises. *)
Definition asset_type_index (t : AssetType) : Z :=
  match t with
  | Gold => 0 | Silver => 1 | Platinum => 2 | Palladium => 3
  | Diamond => 4 | Ruby => 5 | Emerald => 6 | Sapphire => 7
  end.

Definition ex_asset_pda (o : Pubkey) (t : AssetType) : Pubkey :=
  1000 + 10 * o + asset_type_index t.

Definition ex_order_pda (o : Pubkey) (now : Z) : Pubkey :=
  100000 + 1000 * o + now.

Definition ex_foreign (k : Pubkey) : ForeignAccount :=
  if (100 <=? k) && (k <? 200) then TokenAccountData else NoAccount.

Definition ex_token_ok : TokenEnv :=
  mkTokenEnv ex_foreign 50 (fun ix => tx_authority ix =? 1).

(** The same token accounts, with a token program that accepts every
    transfer. *)
Definition ex_token_accept_all : TokenEnv :=
  mkTokenEnv ex_foreign 50 (fun _ => true).

(** The end-to-end run of the spec: A (key 1) registers gold, offers it,
    and the trade with buyer B (key 2) is executed. *)
Definition ex_txs : list (Z * Instruction) :=
  [ (5, IInitializeAsset (mkInitializeAsset 1010 1 [1]) Gold 1000 99 "C1" 5000);
    (6, ICreateTradeOrder (mkCreateTradeOrder 101006 1010 1 [1]) Sell 10 5000);
    (7, IExecuteTrade (mkExecuteTrade 101006 1010 100 101 1 2 50 [1; 2])) ].

Fixpoint run_final (L : Ledger) (txs : list (Z * Instruction)) : Ledger :=
  match txs with
  | [] => L
  | (now, ix) :: txs' =>
      run_final (snd (step ex_asset_pda ex_order_pda ex_token_ok now ix L)) txs'
  end.

Example end_to_end :
  run_final ∅ ex_txs !! 1010 = Some (AssetAcc (mkAsset 2 Gold 1000 99 "C1" 5000 5 0 true)) /\
  run_final ∅ ex_txs !! 101006 = Some (OrderAcc (mkTradeOrder 1010 1 Sell 0 5000 6 false)).
Proof. split; vm_compute; reflexivity. Qed.

(** A ledger with one asset (key 10) and one order on it (key 20). *)
Definition ex_asset : Asset := mkAsset 1 Gold 1000 99 "C1" 5000 5 0 true.

Definition ex_order (active : bool) (q : Z) : TradeOrder :=
  mkTradeOrder 10 1 Sell q 5000 6 active.

Definition ex_ledger (active : bool) (q : Z) : Ledger :=
  <[20 := OrderAcc (ex_order active q)]> {[10 := AssetAcc ex_asset]}.

Definition ex_ctx (signers : list Pubkey) : ExecuteTrade :=
  mkExecuteTrade 20 10 100 101 1 2 50 signers.

Definition ex_ledger_traded : Ledger :=
  <[10 := AssetAcc (set_owner ex_asset 2)]>
    (<[20 := OrderAcc (consume (ex_order true 10))]> (ex_ledger true 10)).

(** ** Witnesses *)

Lemma execute_trade_success_effects_witness :
  execute_trade ex_token_ok (ex_ctx [1; 2]) (ex_ledger true 10)
    = ([settlement_ix (ex_ctx [1; 2]) (ex_order true 10)], Ok ex_ledger_traded) /\
  (exists o', ex_ledger_traded !! 20 = Some (OrderAcc o') /\
              quantity o' = 0 /\ order_is_active o' = false).
Proof.
  assert (H : execute_trade ex_token_ok (ex_ctx [1; 2]) (ex_ledger true 10)
    = ([settlement_ix (ex_ctx [1; 2]) (ex_order true 10)], Ok ex_ledger_traded))
    by (vm_compute; reflexivity).
  split; [exact H|].
  exact (proj1 (execute_trade_success_effects ex_token_ok (ex_ctx [1; 2])
    (ex_ledger true 10) (ex_order true 10) _ _
    eq_refl eq_refl ltac:(simpl; lia) H)).
Defined.

Lemma execute_trade_inactive_witness :
  execute_trade ex_token_ok (ex_ctx [1; 2]) (ex_ledger false 10)
    = ([], Err (Custom OrderInactive)).
Proof.
  apply (proj1 (proj2 (proj2 (execute_trade_inactive ex_asset_pda ex_order_pda
    ex_token_ok (ex_ctx [1; 2]) (ex_ledger false 10) (ex_order false 10)
    eq_refl eq_refl)))).
  - exists ex_asset. reflexivity.
  - vm_compute; repeat split.
  - apply (bool_decide_unpack _); vm_compute; exact I.
  - apply (bool_decide_unpack _); vm_compute; exact I.
Defined.

Lemma execute_trade_check_order_witness :
  execute_trade ex_token_ok (ex_ctx [1; 2]) (ex_ledger true 0)
    = ([], Err (Custom InvalidQuantity)).
Proof.
  apply (proj1 (execute_trade_check_order ex_asset_pda ex_order_pda ex_token_ok
    (ex_ctx [1; 2]) (ex_ledger true 0) (ex_order true 0) ex_asset
    eq_refl eq_refl ltac:(vm_compute; repeat split) ltac:(apply (bool_decide_unpack _); vm_compute; exact I) ltac:(apply (bool_decide_unpack _); vm_compute; exact I))); reflexivity.
Defined.

Lemma execute_trade_amount_is_quantity_witness :
  fst (execute_trade ex_token_ok (ex_ctx [1; 2])
         (<[20 := OrderAcc (with_price_per_unit (ex_order true 10) 1)]>
            (ex_ledger true 10)))
  = fst (execute_trade ex_token_ok (ex_ctx [1; 2]) (ex_ledger true 10)).
Proof.
  exact (proj1 (proj2 (proj2 (execute_trade_amount_is_quantity ex_token_ok
    (ex_ctx [1; 2]) (ex_ledger true 10) (ex_order true 10) 1 eq_refl)))).
Defined.

(** A second asset (key 11) that the order at key 20 does not name. *)
Definition ex_other_asset : Asset := mkAsset 3 Ruby 40 90 "R7" 800 5 0 true.

Definition ex_ledger_two_assets : Ledger :=
  <[11 := AssetAcc ex_other_asset]> (ex_ledger true 10).

Definition ex_ctx_other_asset : ExecuteTrade :=
  mkExecuteTrade 20 11 100 101 1 2 50 [1; 2].

Lemma execute_trade_unrelated_asset_witness :
  order_asset (ex_order true 10) <> et_asset ex_ctx_other_asset /\
  exists L',
    step ex_asset_pda ex_order_pda ex_token_ok 7 (IExecuteTrade ex_ctx_other_asset)
      ex_ledger_two_assets = (Ok tt, L') /\
    L' !! 11 = Some (AssetAcc (set_owner ex_other_asset 2)) /\
    owner (set_owner ex_other_asset 2) = 2.
Proof.
  split; [simpl; lia|].
  exact (execute_trade_unrelated_asset ex_asset_pda ex_order_pda ex_token_ok
    ex_ctx_other_asset ex_ledger_two_assets (ex_order true 10) ex_other_asset 7
    eq_refl eq_refl ltac:(simpl; lia) eq_refl ltac:(simpl; lia)
    ltac:(vm_compute; repeat split)
    ltac:(apply (bool_decide_unpack _); vm_compute; exact I)
    ltac:(apply (bool_decide_unpack _); vm_compute; exact I)
    eq_refl).
Defined.

(** Keys 3 and 4 sign; neither created the order (its owner is key 1). *)
Definition ex_ctx_strangers : ExecuteTrade :=
  mkExecuteTrade 20 10 100 101 3 4 50 [3; 4].

Lemma execute_trade_any_signers_witness :
  order_owner (ex_order true 10) <> et_owner ex_ctx_strangers /\
  order_owner (ex_order true 10) <> et_buyer ex_ctx_strangers /\
  execute_trade ex_token_accept_all ex_ctx_strangers (ex_ledger true 10) =
    ([settlement_ix ex_ctx_strangers (ex_order true 10)],
     Ok (<[10 := AssetAcc (set_owner ex_asset 4)]>
           (<[20 := OrderAcc (consume (ex_order true 10))]> (ex_ledger true 10)))).
Proof.
  split; [simpl; lia|split; [simpl; lia|]].
  exact (execute_trade_any_signers ex_token_accept_all ex_ctx_strangers
    (ex_ledger true 10) (ex_order true 10) ex_asset
    eq_refl eq_refl ltac:(simpl; lia) eq_refl
    ltac:(vm_compute; repeat split)
    ltac:(apply (bool_decide_unpack _); vm_compute; exact I)
    ltac:(apply (bool_decide_unpack _); vm_compute; exact I)).
Defined.

Definition ex_registry : Ledger := {[1010 := AssetAcc ex_asset]}.

Lemma initialize_asset_existing_witness :
  step ex_asset_pda ex_order_pda ex_token_ok 9
    (IInitializeAsset (mkInitializeAsset 1010 1 [1]) Gold 2000 95 "C2" 6000)
    ex_registry
  = (Err AccountAlreadyInUse, ex_registry).
Proof.
  exact (initialize_asset_existing ex_asset_pda ex_order_pda ex_token_ok
    (mkInitializeAsset 1010 1 [1]) 9 Gold 2000 95 "C2" 6000 ex_registry
    (AssetAcc ex_asset)
    ltac:(apply (bool_decide_unpack _); vm_compute; exact I)
    eq_refl eq_refl).
Defined.

Lemma update_price_spec_witness :
  step ex_asset_pda ex_order_pda ex_token_ok 9
    (IUpdatePrice (mkUpdatePrice 1010 3 [3]) 77) ex_registry
  = (Err (Custom Unauthorized), ex_registry).
Proof.
  apply (proj1 (proj2 (update_price_spec ex_asset_pda ex_order_pda ex_token_ok
    (mkUpdatePrice 1010 3 [3]) 9 77 ex_registry ex_asset eq_refl
    ltac:(apply (bool_decide_unpack _); vm_compute; exact I)))).
  simpl. lia.
Defined.

(** ** Counterexamples *)

(** Both keys sign, but the account passed as [from_token_account] is the
    asset account (key 10), which this program owns. *)
Definition ex_ctx_from_asset : ExecuteTrade :=
  mkExecuteTrade 20 10 10 101 1 2 50 [1; 2].

(** An inactive order whose buyer did not sign, and one passed with the
    asset account as [from_token_account]: Anchor's validation fails
    first, so the error is not [OrderInactive]. *)
Lemma execute_trade_inactive_counterexample :
  order_is_active (ex_order false 10) = false /\
  execute_trade ex_token_ok (ex_ctx [1]) (ex_ledger false 10)
    = ([], Err AccountNotSigner) /\
  snd (execute_trade ex_token_ok (ex_ctx [1]) (ex_ledger false 10))
    <> Err (Custom OrderInactive) /\
  execute_trade ex_token_ok ex_ctx_from_asset (ex_ledger false 10)
    = ([], Err AccountOwnedByWrongProgram).
Proof.
  split; [reflexivity|split; [vm_compute; reflexivity|split]];
    [vm_compute; discriminate|vm_compute; reflexivity].
Qed.

(** An active order of quantity 0 whose buyer did not sign, and one
    passed with the asset account as [from_token_account]: Anchor's
    validation fails before the handler checks the quantity. *)
Lemma execute_trade_check_order_counterexample :
  order_is_active (ex_order true 0) = true /\ quantity (ex_order true 0) = 0 /\
  execute_trade ex_token_ok (ex_ctx [1]) (ex_ledger true 0)
    = ([], Err AccountNotSigner) /\
  snd (execute_trade ex_token_ok (ex_ctx [1]) (ex_ledger true 0))
    <> Err (Custom InvalidQuantity) /\
  execute_trade ex_token_ok ex_ctx_from_asset (ex_ledger true 0)
    = ([], Err AccountOwnedByWrongProgram).
Proof.
  split; [reflexivity|split; [reflexivity|split; [|split]]];
    [vm_compute; reflexivity|vm_compute; discriminate|vm_compute; reflexivity].
Qed.

(** Owner 1 registers a second gold asset: refused, but with the system
    program's error, which is none of the program's [ErrorCode]s. *)
Lemma initialize_asset_duplicate_counterexample :
  fst (step ex_asset_pda ex_order_pda ex_token_ok 9
         (IInitializeAsset (mkInitializeAsset 1010 1 [1]) Gold 2000 95 "C2" 6000)
         ex_registry) = Err AccountAlreadyInUse /\
  forall c : ErrorCode,
    fst (step ex_asset_pda ex_order_pda ex_token_ok 9
           (IInitializeAsset (mkInitializeAsset 1010 1 [1]) Gold 2000 95 "C2" 6000)
           ex_registry) <> Err (Custom c).
Proof.
  assert (E : fst (step ex_asset_pda ex_order_pda ex_token_ok 9
    (IInitializeAsset (mkInitializeAsset 1010 1 [1]) Gold 2000 95 "C2" 6000)
    ex_registry) = Err AccountAlreadyInUse) by (vm_compute; reflexivity).
  split; [exact E|]. intros c. rewrite E. discriminate.
Qed.

(** * Whole-program behaviour *)

Section Coverage.

Variable asset_pda : Pubkey -> AssetType -> Pubkey.
Variable order_pda : Pubkey -> Z -> Pubkey.
Variable tok : TokenEnv.

(** The ledger after a sequence of transactions. *)
Fixpoint apply_txs (L : Ledger) (txs : list (Z * Instruction)) : Ledger :=
  match txs with
  | [] => L
  | (now, ix) :: txs' => apply_txs (snd (step asset_pda order_pda tok now ix L)) txs'
  end.

(** Every committed transaction is one of five ledger updates. *)
Lemma step_cases now ix L :
  snd (step asset_pda order_pda tok now ix L) = L \/
  (exists ctx t w p c price,
     ix = IInitializeAsset ctx t w p c price /\
     ia_owner ctx ∈ ia_signers ctx /\
     ia_asset ctx = asset_pda (ia_owner ctx) t /\ L !! ia_asset ctx = None /\
     snd (step asset_pda order_pda tok now ix L) =
       <[ia_asset ctx := AssetAcc (mkAsset (ia_owner ctx) t w p c price now 0 true)]> L) \/
  (exists ctx np a,
     ix = IUpdatePrice ctx np /\ L !! up_asset ctx = Some (AssetAcc a) /\
     up_owner ctx ∈ up_signers ctx /\ owner a = up_owner ctx /\
     snd (step asset_pda order_pda tok now ix L) =
       <[up_asset ctx := AssetAcc (set_price a np now)]> L) \/
  (exists ctx t q ppu a,
     ix = ICreateTradeOrder ctx t q ppu /\ L !! co_asset ctx = Some (AssetAcc a) /\
     co_owner ctx ∈ co_signers ctx /\
     co_order ctx = order_pda (co_owner ctx) now /\ L !! co_order ctx = None /\
     snd (step asset_pda order_pda tok now ix L) =
       <[co_order ctx := OrderAcc (mkTradeOrder (co_asset ctx) (co_owner ctx) t q ppu now true)]> L) \/
  (exists ctx o a,
     ix = IExecuteTrade ctx /\ L !! et_order ctx = Some (OrderAcc o) /\
     L !! et_asset ctx = Some (AssetAcc a) /\
     order_is_active o = true /\ 0 < quantity o /\
     fst (step asset_pda order_pda tok now ix L) = Ok tt /\
     snd (step asset_pda order_pda tok now ix L) =
       <[et_asset ctx := AssetAcc (set_owner a (et_buyer ctx))]>
         (<[et_order ctx := OrderAcc (consume o)]> L)).
Proof.
  destruct ix as [ctx t w p c price|ctx np|ctx t q ppu|ctx].
  - unfold_ix. cbn. repeat case_match; simplify_eq/=; try (left; reflexivity);
    repeat match goal with H : bool_decide _ = true |- _ => apply bool_decide_eq_true_1 in H end.
    right; left. do 6 eexists. repeat split; try done.
  - unfold_ix. cbn. repeat case_match; simplify_eq/=; try (left; reflexivity);
    repeat match goal with H : bool_decide _ = true |- _ => apply bool_decide_eq_true_1 in H end.
    right; right; left. do 3 eexists. repeat split; try done.
  - unfold_ix. cbn. repeat case_match; simplify_eq/=; try (left; reflexivity);
    repeat match goal with H : bool_decide _ = true |- _ => apply bool_decide_eq_true_1 in H end.
    right; right; right; left. do 5 eexists. repeat split; try done.
    + rewrite insert_insert_ne by congruence. f_equal. apply insert_id. done.
  - unfold step, handler, commit.
    destruct (execute_trade tok ctx L) as [tr [L'|e]] eqn:E; cbn; [|left; reflexivity].
    apply execute_trade_ok_inv in E as (o & a & Ho & Ha & _ & _ & Hact & Hq & _ & _ & -> & _).
    right; right; right; right. exists ctx, o, a. done.
Qed.

Ltac lookup_cases :=
  repeat match goal with
  | H : context [ <[_ := _]> _ !! _ ] |- _ => rewrite lookup_insert in H
  | |- context [ <[_ := _]> _ !! _ ] => rewrite lookup_insert
  end;
  repeat case_decide; subst; simplify_eq/=.

(** How one transaction changes the asset stored at [k]. *)
Lemma step_asset_at now ix L k a :
  L !! k = Some (AssetAcc a) ->
  snd (step asset_pda order_pda tok now ix L) !! k = Some (AssetAcc a) \/
  (exists ctx np, ix = IUpdatePrice ctx np /\ up_asset ctx = k /\
     up_owner ctx = owner a /\ up_owner ctx ∈ up_signers ctx /\
     snd (step asset_pda order_pda tok now ix L) !! k =
       Some (AssetAcc (set_price a np now))) \/
  (exists ctx, ix = IExecuteTrade ctx /\ et_asset ctx = k /\
     fst (step asset_pda order_pda tok now ix L) = Ok tt /\
     snd (step asset_pda order_pda tok now ix L) !! k =
       Some (AssetAcc (set_owner a (et_buyer ctx)))).
Proof.
  intros Hk.
  destruct (step_cases now ix L) as
    [->|[(ctx & t & w & p & c & pr & -> & _ & _ & Hnone & ->)
    |[(ctx & np & a0 & -> & Ha0 & Hs & Hown & ->)
    |[(ctx & t & q & ppu & a0 & -> & _ & _ & _ & Hnone & ->)
    |(ctx & o & a0 & -> & Ho & Ha0 & _ & _ & Hok & ->)]]]].
  - left. done.
  - left. lookup_cases; congruence.
  - destruct (decide (up_asset ctx = k)) as [<-|Hne].
    + right; left. rewrite Hk in Ha0. simplify_eq.
      do 2 eexists. split; [reflexivity|]. rewrite lookup_insert_eq. done.
    + left. rewrite lookup_insert_ne by done. done.
  - left. lookup_cases; congruence.
  - destruct (decide (et_asset ctx = k)) as [<-|Hne].
    + right; right. rewrite Hk in Ha0. simplify_eq.
      eexists. split; [reflexivity|]. split; [done|]. split; [done|].
      apply lookup_insert_eq.
    + left. lookup_cases; congruence.
Qed.

Lemma step_keeps_asset now ix L k a :
  L !! k = Some (AssetAcc a) ->
  exists a', snd (step asset_pda order_pda tok now ix L) !! k = Some (AssetAcc a').
Proof.
  intros Hk.
  destruct (step_asset_at now ix L k a Hk)
    as [H|[(ctx & np & _ & _ & _ & _ & H)|(ctx & _ & _ & _ & H)]]; eauto.
Qed.

(** X: the type, weight, purity, certification, creation time and
    [is_active] flag of an asset never change once it exists. *)
Theorem asset_static_fields now ix L k a a' :
  L !! k = Some (AssetAcc a) ->
  snd (step asset_pda order_pda tok now ix L) !! k = Some (AssetAcc a') ->
  asset_type a' = asset_type a /\ weight a' = weight a /\ purity a' = purity a /\
  certification a' = certification a /\ created_at a' = created_at a /\
  is_active a' = is_active a.
Proof.
  intros Hk Hk'.
  destruct (step_asset_at now ix L k a Hk)
    as [H|[(ctx & np & _ & _ & _ & _ & H)|(ctx & _ & _ & _ & H)]];
    rewrite H in Hk'; simplify_eq; done.
Qed.

(** X: the owner of an asset changes only through a successful
    [execute_trade] given that asset, and becomes the [buyer] key. *)
Theorem asset_owner_changes_only_by_trade now ix L k a a' :
  L !! k = Some (AssetAcc a) ->
  snd (step asset_pda order_pda tok now ix L) !! k = Some (AssetAcc a') ->
  owner a' <> owner a ->
  exists ctx, ix = IExecuteTrade ctx /\ et_asset ctx = k /\
    fst (step asset_pda order_pda tok now ix L) = Ok tt /\ owner a' = et_buyer ctx.
Proof.
  intros Hk Hk' Hne.
  destruct (step_asset_at now ix L k a Hk)
    as [H|[(ctx & np & _ & _ & _ & _ & H)|(ctx & Hix & Hka & Hok & H)]];
    rewrite H in Hk'; simplify_eq; try done.
  exists ctx. done.
Qed.

(** X: the price of an asset and its update time change only through
    [update_price] signed by the asset's current owner, and then hold the
    new price and the clock of that transaction. *)
Theorem asset_price_changes_only_by_owner now ix L k a a' :
  L !! k = Some (AssetAcc a) ->
  snd (step asset_pda order_pda tok now ix L) !! k = Some (AssetAcc a') ->
  (current_price a' <> current_price a \/ last_price_update a' <> last_price_update a) ->
  exists ctx np, ix = IUpdatePrice ctx np /\ up_asset ctx = k /\
    up_owner ctx = owner a /\ up_owner ctx ∈ up_signers ctx /\
    current_price a' = np /\ last_price_update a' = now.
Proof.
  intros Hk Hk' Hne.
  destruct (step_asset_at now ix L k a Hk)
    as [H|[(ctx & np & Hix & Hka & Hown & Hs & H)|(ctx & _ & _ & _ & H)]];
    rewrite H in Hk'; simplify_eq; try (destruct Hne; done).
  exists ctx, np. done.
Qed.

(** X: an order's asset, owner, type, unit price and creation time never
    change once it exists. *)
Theorem order_static_fields now ix L k o o' :
  L !! k = Some (OrderAcc o) ->
  snd (step asset_pda order_pda tok now ix L) !! k = Some (OrderAcc o') ->
  order_asset o' = order_asset o /\ order_owner o' = order_owner o /\
  order_type o' = order_type o /\ price_per_unit o' = price_per_unit o /\
  order_created_at o' = order_created_at o.
Proof.
  intros Hk Hk'.
  destruct (step_order_at asset_pda order_pda tok now ix L k o Hk)
    as [H|(_ & _ & _ & _ & _ & H)]; rewrite H in Hk'; simplify_eq; done.
Qed.

(** X: no transaction removes an account or changes its kind: an
    address holding an asset (an order) still holds an asset (an order)
    afterwards. *)
Theorem account_kind_stable now ix L k :
  ((exists a, L !! k = Some (AssetAcc a)) ->
   exists a', snd (step asset_pda order_pda tok now ix L) !! k = Some (AssetAcc a')) /\
  ((exists o, L !! k = Some (OrderAcc o)) ->
   exists o', snd (step asset_pda order_pda tok now ix L) !! k = Some (OrderAcc o')).
Proof.
  split.
  - intros [a Hk]. exact (step_keeps_asset now ix L k a Hk).
  - intros [o Hk].
    destruct (step_order_at asset_pda order_pda tok now ix L k o Hk)
      as [H|(_ & _ & _ & _ & _ & H)]; eauto.
Qed.

(** X: [create_trade_order] succeeds exactly when the asset account loads,
    the owner signed, the order address is the one derived from the owner
    and the clock, and that address is free; nothing is checked about the
    quantity, the price or the owner's relation to the asset.  On success
    the only change is the new active order, which records the asset
    address, the owner, the arguments and the clock. *)
Theorem create_trade_order_spec now ctx t q ppu L :
  (fst (step asset_pda order_pda tok now (ICreateTradeOrder ctx t q ppu) L) = Ok tt <->
     (exists a, L !! co_asset ctx = Some (AssetAcc a)) /\
     co_owner ctx ∈ co_signers ctx /\
     co_order ctx = order_pda (co_owner ctx) now /\
     L !! co_order ctx = None) /\
  (forall L', step asset_pda order_pda tok now (ICreateTradeOrder ctx t q ppu) L = (Ok tt, L') ->
     L' = <[co_order ctx := OrderAcc
                (mkTradeOrder (co_asset ctx) (co_owner ctx) t q ppu now true)]> L).
Proof.
  unfold_ix. cbn.
  destruct (L !! co_asset ctx) as [[a|o]|] eqn:Ha; cbn;
    [|split; [split; [discriminate|intros ([? ?] & _); discriminate]|discriminate]..].
  case_bool_decide as Hs; cbn; [|split; [split; [discriminate|tauto]|discriminate]].
  case_bool_decide as Hpda; cbn; [|split; [split; [discriminate|tauto]|discriminate]].
  destruct (L !! co_order ctx) eqn:Hin; cbn.
  - split; [split; [discriminate|intros (_ & _ & _ & ?); discriminate]|discriminate].
  - split; [split; [intros _; eauto|done]|].
    intros L' [= <-].
    assert (co_asset ctx <> co_order ctx) by congruence.
    rewrite insert_insert_ne by done. f_equal. apply insert_id. done.
Qed.

(** X: an order of quantity 0 (which [create_trade_order] accepts) is
    never changed by any later transaction: it stays open and can never be
    executed. *)
Theorem zero_quantity_order_frozen L k o txs :
  L !! k = Some (OrderAcc o) -> quantity o = 0 ->
  apply_txs L txs !! k = Some (OrderAcc o).
Proof.
  intros Hk Hq. revert L Hk. induction txs as [|[now ix] txs IH]; intros L Hk; [done|].
  cbn [apply_txs]. apply IH.
  destruct (step_cases now ix L) as
    [->|[(ctx & t & w & p & c & pr & -> & _ & _ & Hnone & ->)
    |[(ctx & np & a0 & -> & Ha0 & Hs & Hown & ->)
    |[(ctx & t & q & ppu & a0 & -> & Ha0 & _ & _ & Hnone & ->)
    |(ctx & o0 & a0 & -> & Ho & Ha0 & _ & Hq0 & _ & ->)]]]];
    try done.
  - rewrite lookup_insert_ne by congruence. done.
  - rewrite lookup_insert_ne by congruence. done.
  - rewrite lookup_insert_ne by congruence. done.
  - destruct (decide (et_order ctx = k)) as [<-|Hne].
    + rewrite Hk in Ho. simplify_eq. lia.
    + rewrite !lookup_insert_ne by congruence. done.
Qed.

(** X: the order address depends only on the owner and the clock, so a
    second order by the same owner in the same clock second is refused
    with the system program's "account already in use". *)
Theorem create_trade_order_same_second now ctx t q ppu L L1 ctx' t' q' ppu' a' :
  step asset_pda order_pda tok now (ICreateTradeOrder ctx t q ppu) L = (Ok tt, L1) ->
  co_owner ctx' = co_owner ctx ->
  co_order ctx' = order_pda (co_owner ctx') now ->
  L1 !! co_asset ctx' = Some (AssetAcc a') ->
  co_owner ctx' ∈ co_signers ctx' ->
  step asset_pda order_pda tok now (ICreateTradeOrder ctx' t' q' ppu') L1
    = (Err AccountAlreadyInUse, L1).
Proof.
  intros H1 Hown Hpda Ha Hs.
  pose proof (f_equal fst H1) as Hok. cbn in Hok.
  apply (proj1 (create_trade_order_spec now ctx t q ppu L)) in Hok
    as (_ & _ & Hpda1 & _).
  apply (proj2 (create_trade_order_spec now ctx t q ppu L)) in H1. subst L1.
  assert (Hkey : co_order ctx' = co_order ctx) by congruence.
  unfold_ix. cbn. rewrite Ha. cbn.
  rewrite bool_decide_eq_true_2 by done. cbn.
  rewrite bool_decide_eq_true_2 by done. cbn.
  rewrite Hkey, lookup_insert_eq. reflexivity.
Qed.

(** X: only [execute_trade] calls the token program, and no instruction
    calls it more than once. *)
Theorem token_transfers_only_in_trade now ix L :
  (length (fst (handler asset_pda order_pda tok now ix L)) <= 1)%nat /\
  (fst (handler asset_pda order_pda tok now ix L) <> [] ->
   exists ctx, ix = IExecuteTrade ctx).
Proof.
  destruct ix as [ctx t w p c price|ctx np|ctx t q ppu|ctx].
  4: unfold handler;
     destruct (execute_trade_log tok ctx L) as [->|(o & _ & _ & _ & ->)];
     cbn; split; try lia; eauto.
  all: unfold handler, initialize_asset, update_price, create_trade_order,
         load_asset, require_signer, require, init_account, bind, ret, throw;
       repeat case_match; simplify_eq/=; split; try lia; try done; eauto.
Qed.

(** X: after a trade the seller can no longer set the asset's price and
    the buyer can: [update_price] by a signing caller on the traded asset
    fails with [Unauthorized] exactly when the caller is not the buyer. *)
Theorem trade_moves_price_right now ctx L L1 now' uctx np :
  step asset_pda order_pda tok now (IExecuteTrade ctx) L = (Ok tt, L1) ->
  up_asset uctx = et_asset ctx ->
  up_owner uctx ∈ up_signers uctx ->
  (fst (step asset_pda order_pda tok now' (IUpdatePrice uctx np) L1)
     = Err (Custom Unauthorized) <-> up_owner uctx <> et_buyer ctx).
Proof.
  intros H Hk Hs.
  unfold step, handler, commit in H.
  destruct (execute_trade tok ctx L) as [tr [L'|e]] eqn:E; cbn in H; [|discriminate].
  injection H as <-.
  apply execute_trade_ok_lookups in E as (o0 & a0 & _ & _ & _ & Ha' & _).
  rewrite <- Hk in Ha'.
  unfold_ix. rewrite Ha'. cbn.
  rewrite bool_decide_eq_true_2 by done. cbn.
  case_bool_decide; cbn; split; congruence.
Qed.

(** ** Invariants of every ledger the program can reach *)

Definition assets_active (L : Ledger) : Prop :=
  forall k a, L !! k = Some (AssetAcc a) -> is_active a = true.

Definition inactive_orders_empty (L : Ledger) : Prop :=
  forall k o, L !! k = Some (OrderAcc o) -> order_is_active o = false -> quantity o = 0.

Definition orders_at_pda (L : Ledger) : Prop :=
  forall k o, L !! k = Some (OrderAcc o) -> k = order_pda (order_owner o) (order_created_at o).

Definition orders_name_assets (L : Ledger) : Prop :=
  forall k o, L !! k = Some (OrderAcc o) ->
    exists a, L !! order_asset o = Some (AssetAcc a).

Lemma apply_txs_preserves (P : Ledger -> Prop) L txs :
  (forall L now ix, P L -> P (snd (step asset_pda order_pda tok now ix L))) ->
  P L -> P (apply_txs L txs).
Proof.
  intros Hstep. revert L. induction txs as [|[now ix] txs IH]; intros L HL; [done|].
  cbn [apply_txs]. apply IH, Hstep, HL.
Qed.

Ltac step_destruct now ix L :=
  destruct (step_cases now ix L) as
    [->|[(?ctx & ?t & ?w & ?p & ?c & ?pr & -> & ?Hs & ?Hpda & ?Hnone & ->)
    |[(?ctx & ?np & ?a0 & -> & ?Ha0 & ?Hs & ?Hown & ->)
    |[(?ctx & ?t & ?q & ?ppu & ?a0 & -> & ?Ha0 & ?Hs & ?Hpda & ?Hnone & ->)
    |(?ctx & ?o0 & ?a0 & -> & ?Ho & ?Ha0 & ?Hact & ?Hq0 & ?Hok & ->)]]]].

Lemma assets_active_step L now ix :
  assets_active L -> assets_active (snd (step asset_pda order_pda tok now ix L)).
Proof.
  intros HP. step_destruct now ix L; intros k a Hk; try (by eapply HP);
    lookup_cases; try done; by eapply HP.
Qed.

Lemma inactive_orders_empty_step L now ix :
  inactive_orders_empty L ->
  inactive_orders_empty (snd (step asset_pda order_pda tok now ix L)).
Proof.
  intros HP. step_destruct now ix L; intros k o Hk Hin; try (by eapply HP);
    lookup_cases; try done; by eapply HP.
Qed.

Lemma orders_at_pda_step L now ix :
  orders_at_pda L -> orders_at_pda (snd (step asset_pda order_pda tok now ix L)).
Proof.
  intros HP. step_destruct now ix L; intros k o Hk; try (by eapply HP);
    lookup_cases; try done; by eapply HP.
Qed.

Lemma orders_name_assets_step L now ix :
  orders_name_assets L -> orders_name_assets (snd (step asset_pda order_pda tok now ix L)).
Proof.
  intros HP k o Hk.
  assert (Hkeep : forall x a, L !! x = Some (AssetAcc a) ->
    exists a', snd (step asset_pda order_pda tok now ix L) !! x = Some (AssetAcc a'))
    by (intros x a Hx; exact (step_keeps_asset now ix L x a Hx)).
  assert (Hold : L !! k = Some (OrderAcc o) ->
    exists a, snd (step asset_pda order_pda tok now ix L) !! order_asset o = Some (AssetAcc a)).
  { intros Hk0. destruct (HP k o Hk0) as [a Ha]. exact (Hkeep _ a Ha). }
  revert Hk Hkeep Hold.
  step_destruct now ix L; intros Hk Hkeep Hold; try (by apply Hold);
    repeat (rewrite lookup_insert in Hk; case_decide); simplify_eq;
    try (by apply Hold).
  - exact (Hkeep _ _ Ha0).
  - destruct (HP _ _ Ho) as [a Ha]. exact (Hkeep _ a Ha).
Qed.

(** X: every asset in a reachable ledger is active. *)
Theorem reachable_assets_active txs k a :
  apply_txs ∅ txs !! k = Some (AssetAcc a) -> is_active a = true.
Proof.
  revert k a. apply apply_txs_preserves; [apply assets_active_step|].
  intros k a Hk. done.
Qed.

(** X: in a reachable ledger every inactive order has quantity 0. *)
Theorem reachable_inactive_orders_empty txs k o :
  apply_txs ∅ txs !! k = Some (OrderAcc o) -> order_is_active o = false ->
  quantity o = 0.
Proof.
  revert k o. apply apply_txs_preserves; [apply inactive_orders_empty_step|].
  intros k o Hk. done.
Qed.

(** X: in a reachable ledger every order is stored at the address
    derived from its owner and its creation time. *)
Theorem reachable_orders_at_pda txs k o :
  apply_txs ∅ txs !! k = Some (OrderAcc o) ->
  k = order_pda (order_owner o) (order_created_at o).
Proof.
  revert k o. apply apply_txs_preserves; [apply orders_at_pda_step|].
  intros k o Hk. done.
Qed.

(** X: in a reachable ledger the [asset] field of every order names an
    address that holds an asset. *)
Theorem reachable_orders_name_assets txs k o :
  apply_txs ∅ txs !! k = Some (OrderAcc o) ->
  exists a, apply_txs ∅ txs !! order_asset o = Some (AssetAcc a).
Proof.
  revert k o. apply apply_txs_preserves; [apply orders_name_assets_step|].
  intros k o Hk. done.
Qed.

End Coverage.

(** ** Witnesses of the whole-program properties *)

Definition ex_ledger_repriced : Ledger :=
  snd (step ex_asset_pda ex_order_pda ex_token_ok 9
         (IUpdatePrice (mkUpdatePrice 1010 1 [1]) 77) ex_registry).

Definition ex_ledger_after_trade : Ledger :=
  snd (step ex_asset_pda ex_order_pda ex_token_ok 7
         (IExecuteTrade (ex_ctx [1; 2])) (ex_ledger true 10)).

Lemma asset_static_fields_witness :
  weight (set_price ex_asset 77 9) = weight ex_asset /\
  is_active (set_price ex_asset 77 9) = is_active ex_asset.
Proof.
  destruct (asset_static_fields ex_asset_pda ex_order_pda ex_token_ok 9
    (IUpdatePrice (mkUpdatePrice 1010 1 [1]) 77) ex_registry 1010 ex_asset
    (set_price ex_asset 77 9) eq_refl ltac:(vm_compute; reflexivity))
    as (_ & Hw & _ & _ & _ & Ha).
  split; [exact Hw|exact Ha].
Defined.

Lemma asset_owner_changes_only_by_trade_witness :
  exists ctx, IExecuteTrade (ex_ctx [1; 2]) = IExecuteTrade ctx /\ et_asset ctx = 10 /\
    fst (step ex_asset_pda ex_order_pda ex_token_ok 7
           (IExecuteTrade (ex_ctx [1; 2])) (ex_ledger true 10)) = Ok tt /\
    owner (set_owner ex_asset 2) = et_buyer ctx.
Proof.
  exact (asset_owner_changes_only_by_trade ex_asset_pda ex_order_pda ex_token_ok 7
    (IExecuteTrade (ex_ctx [1; 2])) (ex_ledger true 10) 10 ex_asset
    (set_owner ex_asset 2) eq_refl ltac:(vm_compute; reflexivity)
    ltac:(simpl; lia)).
Defined.

Lemma asset_price_changes_only_by_owner_witness :
  exists ctx np, IUpdatePrice (mkUpdatePrice 1010 1 [1]) 77 = IUpdatePrice ctx np /\
    up_asset ctx = 1010 /\ up_owner ctx = owner ex_asset /\
    up_owner ctx ∈ up_signers ctx /\
    current_price (set_price ex_asset 77 9) = np /\
    last_price_update (set_price ex_asset 77 9) = 9.
Proof.
  exact (asset_price_changes_only_by_owner ex_asset_pda ex_order_pda ex_token_ok 9
    (IUpdatePrice (mkUpdatePrice 1010 1 [1]) 77) ex_registry 1010 ex_asset
    (set_price ex_asset 77 9) eq_refl ltac:(vm_compute; reflexivity)
    ltac:(left; simpl; lia)).
Defined.

Lemma order_static_fields_witness :
  order_asset (consume (ex_order true 10)) = order_asset (ex_order true 10) /\
  price_per_unit (consume (ex_order true 10)) = price_per_unit (ex_order true 10).
Proof.
  destruct (order_static_fields ex_asset_pda ex_order_pda ex_token_ok 7
    (IExecuteTrade (ex_ctx [1; 2])) (ex_ledger true 10) 20 (ex_order true 10)
    (consume (ex_order true 10)) eq_refl ltac:(vm_compute; reflexivity))
    as (Ha & _ & _ & Hp & _).
  split; [exact Ha|exact Hp].
Defined.

Lemma zero_quantity_order_frozen_witness :
  apply_txs ex_asset_pda ex_order_pda ex_token_ok (ex_ledger true 0)
    [(7, IExecuteTrade (ex_ctx [1; 2]));
     (8, IExecuteTrade (mkExecuteTrade 20 10 100 101 1 1 50 [1]))] !! 20
  = Some (OrderAcc (ex_order true 0)).
Proof.
  exact (zero_quantity_order_frozen ex_asset_pda ex_order_pda ex_token_ok
    (ex_ledger true 0) 20 (ex_order true 0) _ eq_refl eq_refl).
Defined.

Definition ex_order_ctx : CreateTradeOrder := mkCreateTradeOrder 101006 1010 1 [1].

Lemma create_trade_order_same_second_witness :
  step ex_asset_pda ex_order_pda ex_token_ok 6
    (ICreateTradeOrder ex_order_ctx Buy 3 4900)
    (snd (step ex_asset_pda ex_order_pda ex_token_ok 6
            (ICreateTradeOrder ex_order_ctx Sell 10 5000) ex_registry))
  = (Err AccountAlreadyInUse,
     snd (step ex_asset_pda ex_order_pda ex_token_ok 6
            (ICreateTradeOrder ex_order_ctx Sell 10 5000) ex_registry)).
Proof.
  exact (create_trade_order_same_second ex_asset_pda ex_order_pda ex_token_ok 6
    ex_order_ctx Sell 10 5000 ex_registry _ ex_order_ctx Buy 3 4900 ex_asset
    ltac:(vm_compute; reflexivity) eq_refl eq_refl
    ltac:(vm_compute; reflexivity)
    ltac:(apply (bool_decide_unpack _); vm_compute; exact I)).
Defined.

Lemma trade_moves_price_right_witness :
  fst (step ex_asset_pda ex_order_pda ex_token_ok 8
         (IUpdatePrice (mkUpdatePrice 10 1 [1]) 6000) ex_ledger_after_trade)
    = Err (Custom Unauthorized) <-> 1 <> 2.
Proof.
  exact (trade_moves_price_right ex_asset_pda ex_order_pda ex_token_ok 7
    (ex_ctx [1; 2]) (ex_ledger true 10) ex_ledger_after_trade 8
    (mkUpdatePrice 10 1 [1]) 6000 ltac:(vm_compute; reflexivity) eq_refl
    ltac:(apply (bool_decide_unpack _); vm_compute; exact I)).
Defined.

Lemma reachable_assets_active_witness :
  is_active (mkAsset 2 Gold 1000 99 "C1" 5000 5 0 true) = true.
Proof.
  exact (reachable_assets_active ex_asset_pda ex_order_pda ex_token_ok ex_txs 1010
    _ ltac:(vm_compute; reflexivity)).
Defined.

Lemma reachable_inactive_orders_empty_witness :
  quantity (mkTradeOrder 1010 1 Sell 0 5000 6 false) = 0.
Proof.
  exact (reachable_inactive_orders_empty ex_asset_pda ex_order_pda ex_token_ok ex_txs
    101006 _ ltac:(vm_compute; reflexivity) eq_refl).
Defined.

Lemma reachable_orders_at_pda_witness :
  101006 = ex_order_pda (order_owner (mkTradeOrder 1010 1 Sell 0 5000 6 false))
             (order_created_at (mkTradeOrder 1010 1 Sell 0 5000 6 false)).
Proof.
  exact (reachable_orders_at_pda ex_asset_pda ex_order_pda ex_token_ok ex_txs
    101006 _ ltac:(vm_compute; reflexivity)).
Defined.

Lemma reachable_orders_name_assets_witness :
  exists a, apply_txs ex_asset_pda ex_order_pda ex_token_ok ∅ ex_txs
              !! order_asset (mkTradeOrder 1010 1 Sell 0 5000 6 false)
            = Some (AssetAcc a).
Proof.
  exact (reachable_orders_name_assets ex_asset_pda ex_order_pda ex_token_ok ex_txs
    101006 _ ltac:(vm_compute; reflexivity)).
Defined.
